(** * Detectolhat: webcam classifier front-end

    A shallow embedding of [src/App.tsx] and
    [src/components/PredictionBar.tsx].

    - JavaScript numbers are IEEE 754 binary64 values; they are modelled by
      the Standard Library's [spec_float] with [prec = 53], [emax = 1024],
      so that [*], [>] and [toFixed] are the operations of the language and
      not operations on idealised reals.
    - The component state ([useState] cells and [useRef] cells) and the part
      of the browser the component talks to (pending animation-frame
      callbacks, promises not yet settled, a log of the host calls issued so
      far) form one record, [State], threaded through every function.
    - Every [async] function is split at its [await]s: one function for the
      code that runs up to the [await], one for each continuation, which
      receives the outcome of the awaited promise. *)

From Stdlib Require Import ZArith QArith List String Ascii Bool Arith Lia.
From Stdlib Require Import DecimalString.
From Stdlib Require Import Floats.SpecFloat.
Import ListNotations.

Close Scope Q_scope.

(** ** JavaScript numbers *)

Module Number.

Local Open Scope Z_scope.

Definition number := spec_float.

Definition prec : Z := 53.
Definition emax : Z := 1024.

(** A [spec_float] denotes a binary64 value when its mantissa is
    canonical for its exponent. *)
Definition valid (x : number) : bool := valid_binary prec emax x.

(** [a * b] *)
Definition mul (a b : number) : number := SFmul prec emax a b.

(** [a > b]; false as soon as one side is NaN. *)
Definition gt (a b : number) : bool := SFltb b a.

(** [a <= b]; false as soon as one side is NaN. *)
Definition le (a b : number) : bool := SFleb a b.

Definition is_nan (x : number) : bool :=
  match x with S754_nan => true | _ => false end.

(** Literals of the source, as the binary64 value nearest to the decimal
    numeral (lemma [literals_nearest]). *)
Definition lit_0 : number := S754_zero false.
Definition lit_1 : number := S754_finite false 4503599627370496 (-52).
Definition lit_100 : number := S754_finite false 7036874417766400 (-46).
Definition lit_0_6 : number := S754_finite false 5404319552844595 (-53).

(** Numerals used in examples. *)
Definition lit_0_3 : number := S754_finite false 5404319552844595 (-54).
Definition lit_0_7 : number := S754_finite false 6305039478318694 (-53).
Definition lit_0_61 : number := S754_finite false 5494391545392005 (-53).
Definition lit_0_604 : number := S754_finite false 5440348349863559 (-53).
Definition lit_0_015 : number := S754_finite false 8646911284551352 (-59).

(** The exact rational value of a finite number ([0] for the others). *)
Definition to_Q (x : number) : Q :=
  match x with
  | S754_finite s m e =>
      let sm := if s then Z.neg m else Z.pos m in
      match e with
      | Z0 => inject_Z sm
      | Z.pos p => inject_Z (sm * 2 ^ Z.pos p)
      | Z.neg p => Qmake sm (2 ^ p)%positive
      end
  | _ => 0%Q
  end.

(** A key that orders the numbers other than NaN: sign class, then
    exponent, then mantissa (lexicographically). *)
Definition key (x : number) : Z * Z * Z :=
  match x with
  | S754_nan => (0, 0, 0)
  | S754_zero _ => (0, 0, 0)
  | S754_infinity true => (-2, 0, 0)
  | S754_infinity false => (2, 0, 0)
  | S754_finite true m e => (-1, - e, Z.neg m)
  | S754_finite false m e => (1, e, Z.pos m)
  end.

Definition key_lt (a b : Z * Z * Z) : Prop :=
  let '(a1, a2, a3) := a in
  let '(b1, b2, b3) := b in
  a1 < b1 \/ (a1 = b1 /\ (a2 < b2 \/ (a2 = b2 /\ a3 < b3))).

(** *** [Number.prototype.toFixed(0)]

    ECMA-262, 21.1.3.3 with [fractionDigits = 0]: a number that is not
    finite prints as [Number::toString] does; otherwise the sign is split
    off, a magnitude of [10^21] or more prints as [Number::toString] does,
    and a smaller one prints as the decimal digits of the integer [n] for
    which [n - x] is as close to zero as possible, the larger [n] if there
    are two. *)

(** The integer nearest to [m * 2^e], the larger one on a tie. *)
Definition round_half_up (m : positive) (e : Z) : Z :=
  match e with
  | Z0 => Z.pos m
  | Z.pos p => Z.pos m * 2 ^ Z.pos p
  | Z.neg p => (2 * Z.pos m + 2 ^ Z.pos p) / (2 * 2 ^ Z.pos p)
  end.

(** The integer part of [m * 2^e]. *)
Definition truncate (m : positive) (e : Z) : Z :=
  match e with
  | Z0 => Z.pos m
  | Z.pos p => Z.pos m * 2 ^ Z.pos p
  | Z.neg p => Z.pos m / 2 ^ Z.pos p
  end.

(** Decimal digits of a natural integer, ["0"] for zero. *)
Definition decimal (n : Z) : string :=
  NilZero.string_of_uint (N.to_uint (Z.to_N n)).

Section ToFixed.

(** [Number::toString] on finite magnitudes of [10^21] and more
    (exponent notation) is left to the host. *)
Variable Number_toString : number -> string.

Definition toFixed0 (x : number) : string :=
  match x with
  | S754_nan => "NaN"%string
  | S754_infinity false => "Infinity"%string
  | S754_infinity true => "-Infinity"%string
  | S754_zero _ => "0"%string
  | S754_finite s m e =>
      let sign := (if s then "-" else "")%string in
      if 10 ^ 21 <=? truncate m e
      then String.append sign (Number_toString (S754_finite false m e))
      else String.append sign (decimal (round_half_up m e))
  end.

End ToFixed.

End Number.

Import Number.

(** ** Data model *)

(** [Prediction] of [./types]: the record [{ className, probability }]. *)
Record Prediction : Type := mkPrediction {
  className : string;
  probability : number
}.

(** ** Host objects *)

(** A [MediaStreamTrack], known by its identity. *)
Definition MediaStreamTrack := nat.

Record MediaStream : Type := mkMediaStream {
  getTracks : list MediaStreamTrack
}.

(** The [<video>] element behind [videoRef]. *)
Record HTMLVideoElement : Type := mkVideo {
  srcObject : option MediaStream;
  readyState : nat
}.

(** The model handle that [tmImage.load] resolves to. *)
Record Model : Type := mkModel {
  getClassLabels : list string
}.

(** Truthiness of the two globals the script tags define. *)
Record Window : Type := mkWindow {
  tmImage : bool;
  tf : bool
}.

(** Calls made to the host, in the order they are issued. *)
Inductive HostCall : Type :=
| tmImage_load (modelURL metadataURL : string)
| getUserMedia_user_facing
| model_predict (flipped : bool)
| requestAnimationFrame_call (id : nat)
| cancelAnimationFrame_call (id : nat)
| track_stop (t : MediaStreamTrack)
| console_error (msg : string).

(** How an awaited promise settles. *)
Inductive Settled (A : Type) : Type :=
| Resolved (a : A)
| Rejected.
Arguments Resolved {A} a.
Arguments Rejected {A}.

(** ** State *)

Record State : Type := mkState {
  (* useState *)
  isLoadingModel : bool;
  isStartingWebcam : bool;
  webcamActive : bool;
  predictions : list Prediction;
  error : option string;
  (* useRef: the [current] field of each ref *)
  videoRef : option HTMLVideoElement;
  modelRef : option Model;
  requestAnimationFrameRef : nat;
  (* host: animation-frame scheduler *)
  rafNext : nat;
  rafPending : list nat;
  (* host: promises the component is suspended on *)
  awaitingLoad : nat;
  awaitingCamera : nat;
  awaitingMetadata : nat;
  awaitingPredict : nat;
  (* host: calls issued so far *)
  calls : list HostCall
}.

Definition with_isLoadingModel (v : bool) (s : State) : State :=
  {| isLoadingModel := v; isStartingWebcam := isStartingWebcam s;
     webcamActive := webcamActive s; predictions := predictions s;
     error := error s; videoRef := videoRef s; modelRef := modelRef s;
     requestAnimationFrameRef := requestAnimationFrameRef s;
     rafNext := rafNext s; rafPending := rafPending s;
     awaitingLoad := awaitingLoad s; awaitingCamera := awaitingCamera s;
     awaitingMetadata := awaitingMetadata s;
     awaitingPredict := awaitingPredict s; calls := calls s |}.

Definition with_isStartingWebcam (v : bool) (s : State) : State :=
  {| isLoadingModel := isLoadingModel s; isStartingWebcam := v;
     webcamActive := webcamActive s; predictions := predictions s;
     error := error s; videoRef := videoRef s; modelRef := modelRef s;
     requestAnimationFrameRef := requestAnimationFrameRef s;
     rafNext := rafNext s; rafPending := rafPending s;
     awaitingLoad := awaitingLoad s; awaitingCamera := awaitingCamera s;
     awaitingMetadata := awaitingMetadata s;
     awaitingPredict := awaitingPredict s; calls := calls s |}.

Definition with_webcamActive (v : bool) (s : State) : State :=
  {| isLoadingModel := isLoadingModel s;
     isStartingWebcam := isStartingWebcam s; webcamActive := v;
     predictions := predictions s; error := error s; videoRef := videoRef s;
     modelRef := modelRef s;
     requestAnimationFrameRef := requestAnimationFrameRef s;
     rafNext := rafNext s; rafPending := rafPending s;
     awaitingLoad := awaitingLoad s; awaitingCamera := awaitingCamera s;
     awaitingMetadata := awaitingMetadata s;
     awaitingPredict := awaitingPredict s; calls := calls s |}.

Definition with_predictions (v : list Prediction) (s : State) : State :=
  {| isLoadingModel := isLoadingModel s;
     isStartingWebcam := isStartingWebcam s; webcamActive := webcamActive s;
     predictions := v; error := error s; videoRef := videoRef s;
     modelRef := modelRef s;
     requestAnimationFrameRef := requestAnimationFrameRef s;
     rafNext := rafNext s; rafPending := rafPending s;
     awaitingLoad := awaitingLoad s; awaitingCamera := awaitingCamera s;
     awaitingMetadata := awaitingMetadata s;
     awaitingPredict := awaitingPredict s; calls := calls s |}.

Definition with_error (v : option string) (s : State) : State :=
  {| isLoadingModel := isLoadingModel s;
     isStartingWebcam := isStartingWebcam s; webcamActive := webcamActive s;
     predictions := predictions s; error := v; videoRef := videoRef s;
     modelRef := modelRef s;
     requestAnimationFrameRef := requestAnimationFrameRef s;
     rafNext := rafNext s; rafPending := rafPending s;
     awaitingLoad := awaitingLoad s; awaitingCamera := awaitingCamera s;
     awaitingMetadata := awaitingMetadata s;
     awaitingPredict := awaitingPredict s; calls := calls s |}.

Definition with_videoRef (v : option HTMLVideoElement) (s : State) : State :=
  {| isLoadingModel := isLoadingModel s;
     isStartingWebcam := isStartingWebcam s; webcamActive := webcamActive s;
     predictions := predictions s; error := error s; videoRef := v;
     modelRef := modelRef s;
     requestAnimationFrameRef := requestAnimationFrameRef s;
     rafNext := rafNext s; rafPending := rafPending s;
     awaitingLoad := awaitingLoad s; awaitingCamera := awaitingCamera s;
     awaitingMetadata := awaitingMetadata s;
     awaitingPredict := awaitingPredict s; calls := calls s |}.

Definition with_modelRef (v : option Model) (s : State) : State :=
  {| isLoadingModel := isLoadingModel s;
     isStartingWebcam := isStartingWebcam s; webcamActive := webcamActive s;
     predictions := predictions s; error := error s; videoRef := videoRef s;
     modelRef := v; requestAnimationFrameRef := requestAnimationFrameRef s;
     rafNext := rafNext s; rafPending := rafPending s;
     awaitingLoad := awaitingLoad s; awaitingCamera := awaitingCamera s;
     awaitingMetadata := awaitingMetadata s;
     awaitingPredict := awaitingPredict s; calls := calls s |}.

Definition with_requestAnimationFrameRef (v : nat) (s : State) : State :=
  {| isLoadingModel := isLoadingModel s;
     isStartingWebcam := isStartingWebcam s; webcamActive := webcamActive s;
     predictions := predictions s; error := error s; videoRef := videoRef s;
     modelRef := modelRef s; requestAnimationFrameRef := v;
     rafNext := rafNext s; rafPending := rafPending s;
     awaitingLoad := awaitingLoad s; awaitingCamera := awaitingCamera s;
     awaitingMetadata := awaitingMetadata s;
     awaitingPredict := awaitingPredict s; calls := calls s |}.

Definition with_rafNext (v : nat) (s : State) : State :=
  {| isLoadingModel := isLoadingModel s;
     isStartingWebcam := isStartingWebcam s; webcamActive := webcamActive s;
     predictions := predictions s; error := error s; videoRef := videoRef s;
     modelRef := modelRef s;
     requestAnimationFrameRef := requestAnimationFrameRef s; rafNext := v;
     rafPending := rafPending s; awaitingLoad := awaitingLoad s;
     awaitingCamera := awaitingCamera s;
     awaitingMetadata := awaitingMetadata s;
     awaitingPredict := awaitingPredict s; calls := calls s |}.

Definition with_rafPending (v : list nat) (s : State) : State :=
  {| isLoadingModel := isLoadingModel s;
     isStartingWebcam := isStartingWebcam s; webcamActive := webcamActive s;
     predictions := predictions s; error := error s; videoRef := videoRef s;
     modelRef := modelRef s;
     requestAnimationFrameRef := requestAnimationFrameRef s;
     rafNext := rafNext s; rafPending := v; awaitingLoad := awaitingLoad s;
     awaitingCamera := awaitingCamera s;
     awaitingMetadata := awaitingMetadata s;
     awaitingPredict := awaitingPredict s; calls := calls s |}.

Definition with_awaitingLoad (v : nat) (s : State) : State :=
  {| isLoadingModel := isLoadingModel s;
     isStartingWebcam := isStartingWebcam s; webcamActive := webcamActive s;
     predictions := predictions s; error := error s; videoRef := videoRef s;
     modelRef := modelRef s;
     requestAnimationFrameRef := requestAnimationFrameRef s;
     rafNext := rafNext s; rafPending := rafPending s; awaitingLoad := v;
     awaitingCamera := awaitingCamera s;
     awaitingMetadata := awaitingMetadata s;
     awaitingPredict := awaitingPredict s; calls := calls s |}.

Definition with_awaitingCamera (v : nat) (s : State) : State :=
  {| isLoadingModel := isLoadingModel s;
     isStartingWebcam := isStartingWebcam s; webcamActive := webcamActive s;
     predictions := predictions s; error := error s; videoRef := videoRef s;
     modelRef := modelRef s;
     requestAnimationFrameRef := requestAnimationFrameRef s;
     rafNext := rafNext s; rafPending := rafPending s;
     awaitingLoad := awaitingLoad s; awaitingCamera := v;
     awaitingMetadata := awaitingMetadata s;
     awaitingPredict := awaitingPredict s; calls := calls s |}.

Definition with_awaitingMetadata (v : nat) (s : State) : State :=
  {| isLoadingModel := isLoadingModel s;
     isStartingWebcam := isStartingWebcam s; webcamActive := webcamActive s;
     predictions := predictions s; error := error s; videoRef := videoRef s;
     modelRef := modelRef s;
     requestAnimationFrameRef := requestAnimationFrameRef s;
     rafNext := rafNext s; rafPending := rafPending s;
     awaitingLoad := awaitingLoad s; awaitingCamera := awaitingCamera s;
     awaitingMetadata := v; awaitingPredict := awaitingPredict s;
     calls := calls s |}.

Definition with_awaitingPredict (v : nat) (s : State) : State :=
  {| isLoadingModel := isLoadingModel s;
     isStartingWebcam := isStartingWebcam s; webcamActive := webcamActive s;
     predictions := predictions s; error := error s; videoRef := videoRef s;
     modelRef := modelRef s;
     requestAnimationFrameRef := requestAnimationFrameRef s;
     rafNext := rafNext s; rafPending := rafPending s;
     awaitingLoad := awaitingLoad s; awaitingCamera := awaitingCamera s;
     awaitingMetadata := awaitingMetadata s; awaitingPredict := v;
     calls := calls s |}.

Definition with_calls (v : list HostCall) (s : State) : State :=
  {| isLoadingModel := isLoadingModel s;
     isStartingWebcam := isStartingWebcam s; webcamActive := webcamActive s;
     predictions := predictions s; error := error s; videoRef := videoRef s;
     modelRef := modelRef s;
     requestAnimationFrameRef := requestAnimationFrameRef s;
     rafNext := rafNext s; rafPending := rafPending s;
     awaitingLoad := awaitingLoad s; awaitingCamera := awaitingCamera s;
     awaitingMetadata := awaitingMetadata s;
     awaitingPredict := awaitingPredict s; calls := v |}.

Definition log (c : HostCall) (s : State) : State :=
  with_calls (calls s ++ [c]) s.

(** The state after the first render: initial [useState] values, the
    [<video>] element attached to [videoRef], nothing scheduled.  Request
    ids handed out by the host are positive. *)
Definition initialState (video : HTMLVideoElement) : State :=
  {| isLoadingModel := true; isStartingWebcam := false;
     webcamActive := false; predictions := []; error := None;
     videoRef := Some video; modelRef := None;
     requestAnimationFrameRef := 0;
     rafNext := 1; rafPending := [];
     awaitingLoad := 0; awaitingCamera := 0; awaitingMetadata := 0;
     awaitingPredict := 0; calls := [] |}.

(** ** Host: per-frame callbacks *)

(** [requestAnimationFrame(predictLoop)]: a fresh id, the callback
    pending under it. *)
Definition requestAnimationFrame (s : State) : nat * State :=
  let id := rafNext s in
  (id, log (requestAnimationFrame_call id)
         (with_rafPending (rafPending s ++ [id])
            (with_rafNext (S id) s))).

(** [cancelAnimationFrame(id)] *)
Definition cancelAnimationFrame (id : nat) (s : State) : State :=
  log (cancelAnimationFrame_call id)
    (with_rafPending (remove Nat.eq_dec id (rafPending s)) s).

(** ** Constants of App.tsx *)

Definition MODEL_URL : string :=
  "https://teachablemachine.withgoogle.com/models/WaHRZl6S7/".

Definition error_libraries_missing : string :=
  "Required AI libraries not loaded. Please check your internet connection and refresh.".

Definition error_model_load : string :=
  "Could not load the AI model. Please check your connection and try again.".

Definition error_camera : string :=
  "Could not access the camera. Please grant permission and try again.".

(** ** [loadModel] (App.tsx, lines 27-52) *)

(** Up to [await window.tmImage.load(...)]. *)
Definition loadModel_begin (window : Window) (s : State) : State :=
  if negb (tmImage window) || negb (tf window) then
    with_isLoadingModel false
      (with_error (Some error_libraries_missing) s)
  else
    let modelURL := (MODEL_URL ++ "model.json")%string in
    let metadataURL := (MODEL_URL ++ "metadata.json")%string in
    with_awaitingLoad (S (awaitingLoad s))
      (log (tmImage_load modelURL metadataURL) s).

(** [classNames.map(name => ({ className: name, probability: 0 }))] *)
Definition initialPredictions (classNames : list string) : list Prediction :=
  map (fun name => mkPrediction name lit_0) classNames.

(** After the [await]: the [try] body, or [catch]; then [finally]. *)
Definition loadModel_settled (o : Settled Model) (s : State) : State :=
  let s := with_awaitingLoad (pred (awaitingLoad s)) s in
  match o with
  | Resolved model =>
      let s := with_modelRef (Some model) s in
      let classNames := getClassLabels model in
      let s := with_predictions (initialPredictions classNames) s in
      with_isLoadingModel false s
  | Rejected =>
      let s := log (console_error "Failed to load model:") s in
      let s := with_error (Some error_model_load) s in
      with_isLoadingModel false s
  end.

(** ** [startWebcam] (App.tsx, lines 54-75) *)

(** Up to [await navigator.mediaDevices.getUserMedia(...)]. *)
Definition startWebcam_begin (s : State) : State :=
  if webcamActive s || isStartingWebcam s then s
  else
    let s := with_isStartingWebcam true s in
    let s := with_error None s in
    with_awaitingCamera (S (awaitingCamera s))
      (log getUserMedia_user_facing s).

(** After [getUserMedia] settles: up to the [await] on the
    [onloadedmetadata] promise, or through [catch] and [finally]. *)
Definition startWebcam_settled (o : Settled MediaStream) (s : State) : State :=
  let s := with_awaitingCamera (pred (awaitingCamera s)) s in
  match o with
  | Resolved stream =>
      match videoRef s with
      | Some video =>
          let s := with_videoRef
                     (Some (mkVideo (Some stream) (readyState video))) s in
          with_awaitingMetadata (S (awaitingMetadata s)) s
      | None => with_isStartingWebcam false s
      end
  | Rejected =>
      let s := log (console_error "Failed to start webcam:") s in
      let s := with_error (Some error_camera) s in
      with_isStartingWebcam false s
  end.

(** After [onloadedmetadata] fired: [setWebcamActive(true)], [finally]. *)
Definition startWebcam_loadedmetadata (s : State) : State :=
  let s := with_awaitingMetadata (pred (awaitingMetadata s)) s in
  let s := with_webcamActive true s in
  with_isStartingWebcam false s.

(** ** [predictLoop] (App.tsx, lines 77-85) *)

(** [modelRef.current && videoRef.current &&
     videoRef.current.readyState >= 3] *)
Definition predictLoop_ready (s : State) : bool :=
  match modelRef s, videoRef s with
  | Some _, Some video => 3 <=? readyState video
  | _, _ => false
  end.

(** [requestAnimationFrameRef.current =
     requestAnimationFrame(predictLoop)] *)
Definition schedule_predictLoop (s : State) : State :=
  let '(id, s) := requestAnimationFrame s in
  with_requestAnimationFrameRef id s.

(** Up to [await modelRef.current.predict(videoRef.current, true)], or to
    the end when the condition is false. *)
Definition predictLoop_begin (s : State) : State :=
  if predictLoop_ready s then
    with_awaitingPredict (S (awaitingPredict s))
      (log (model_predict true) s)
  else schedule_predictLoop s.

(** After [predict] settles.  There is no [try] around the [await]: a
    rejection leaves the function at once. *)
Definition predictLoop_settled (o : Settled (list Prediction)) (s : State)
  : State :=
  let s := with_awaitingPredict (pred (awaitingPredict s)) s in
  match o with
  | Resolved predictionResult =>
      let s := with_predictions predictionResult s in
      schedule_predictLoop s
  | Rejected => s
  end.

(** ** Effects (App.tsx, lines 87-109) *)

(** Truthiness of a ref that holds an object or [null]. *)
Definition truthy {A : Type} (o : option A) : bool :=
  match o with Some _ => true | None => false end.

(** Body of the effect on [[webcamActive, predictLoop]]. *)
Definition effect_predictLoop (s : State) : State :=
  if webcamActive s && truthy (modelRef s)
  then schedule_predictLoop s
  else s.

(** Its cleanup. *)
Definition cleanup_predictLoop (s : State) : State :=
  if negb (requestAnimationFrameRef s =? 0)
  then cancelAnimationFrame (requestAnimationFrameRef s) s
  else s.

(** Cleanup of the last effect: [track.stop()] on each track. *)
Definition cleanup_tracks (s : State) : State :=
  match videoRef s with
  | Some video =>
      match srcObject video with
      | Some stream =>
          fold_left (fun s track => log (track_stop track) s)
            (getTracks stream) s
      | None => s
      end
  | None => s
  end.

(** Mount: the three effects in the order they are declared.  The last
    one only registers its cleanup. *)
Definition mount (window : Window) (s : State) : State :=
  effect_predictLoop (loadModel_begin window s).

(** The cleanups of the effects, in the order the effects are declared.
    Each reads the refs as it finds them. *)
Definition cleanups (s : State) : State :=
  cleanup_tracks (cleanup_predictLoop s).

(** On teardown React also detaches the [<video>] element from
    [videoRef] ([videoRef.current] becomes [null]).  The source does not
    fix the version of React: releases 17 and later detach the refs of
    host elements before they run the cleanups of [useEffect]; release 16
    runs the cleanups of the component first. *)
Inductive RefDetach : Type :=
| DetachBeforeCleanups
| DetachAfterCleanups.

Definition detach_videoRef (s : State) : State := with_videoRef None s.

(** Teardown of the component.  [modelRef] and
    [requestAnimationFrameRef] hold plain values and stay as they are. *)
Definition unmount (order : RefDetach) (s : State) : State :=
  match order with
  | DetachBeforeCleanups => cleanups (detach_videoRef s)
  | DetachAfterCleanups => detach_videoRef (cleanups s)
  end.

(** A change of [webcamActive] runs the cleanup of the effect that
    depends on it, then its body. *)
Definition rerun_effect_predictLoop (before s : State) : State :=
  if Bool.eqb (webcamActive before) (webcamActive s) then s
  else effect_predictLoop (cleanup_predictLoop s).

(** ** Rendering (App.tsx, lines 111-114 and 150-173) *)

(** The callback given to [reduce]. *)
Definition topPrediction_step (prev current : Prediction) : Prediction :=
  if gt (probability prev) (probability current) then prev else current.

(** The initial accumulator [{ className: '', probability: 0 }]. *)
Definition topPrediction_init : Prediction :=
  mkPrediction EmptyString lit_0.

(** [predictions.reduce(step, init)] *)
Definition topPrediction (predictions : list Prediction) : Prediction :=
  fold_left topPrediction_step predictions topPrediction_init.

(** [p.probability > 0.6 && p.className === topPrediction.className] *)
Definition isTopPrediction (predictions : list Prediction) (p : Prediction)
  : bool :=
  gt (probability p) lit_0_6
  && String.eqb (className p) (className (topPrediction predictions)).

(** The props of the bars: [predictions.map(p => <PredictionBar .../>)]. *)
Definition renderBars (predictions : list Prediction)
  : list (Prediction * bool) :=
  map (fun p => (p, isTopPrediction predictions p)) predictions.

(** The start button is rendered while the camera is not active, and is
    disabled while the model loads or the camera starts. *)
Definition startButton_enabled (s : State) : bool :=
  negb (webcamActive s) && negb (isLoadingModel s || isStartingWebcam s).

(** ** PredictionBar.tsx *)

Section PredictionBar.

Variable Number_toString : number -> string.

(** [(prediction.probability * 100).toFixed(0)] *)
Definition percentage (prediction : Prediction) : string :=
  toFixed0 Number_toString (mul (probability prediction) lit_100).

End PredictionBar.

(** ** Runs of the component *)

Inductive Event : Type :=
| LoadSettled (o : Settled Model)
| ClickStart
| CameraSettled (o : Settled MediaStream)
| LoadedMetadata
| ReadyStateChange (n : nat)
| Frame (id : nat)
| PredictSettled (o : Settled (list Prediction))
| Unmount (order : RefDetach).

(** One event, ignored when nothing waits for it. *)
Definition step (s : State) (ev : Event) : State :=
  match ev with
  | LoadSettled o =>
      if awaitingLoad s =? 0 then s else loadModel_settled o s
  | ClickStart =>
      if startButton_enabled s then startWebcam_begin s else s
  | CameraSettled o =>
      if awaitingCamera s =? 0 then s else startWebcam_settled o s
  | LoadedMetadata =>
      if awaitingMetadata s =? 0 then s
      else rerun_effect_predictLoop s (startWebcam_loadedmetadata s)
  | ReadyStateChange n =>
      match videoRef s with
      | Some video => with_videoRef (Some (mkVideo (srcObject video) n)) s
      | None => s
      end
  | Frame id =>
      if existsb (Nat.eqb id) (rafPending s)
      then predictLoop_begin
             (with_rafPending (remove Nat.eq_dec id (rafPending s)) s)
      else s
  | PredictSettled o =>
      if awaitingPredict s =? 0 then s else predictLoop_settled o s
  | Unmount order => unmount order s
  end.

Definition run (s : State) (evs : list Event) : State :=
  fold_left step evs s.

(** ** Predicates used in the statements *)

Definition not_nan (q : Prediction) : Prop := is_nan (probability q) = false.

(** The [stop] calls of a teardown: one per track of the stream attached
    to the video element. *)
Definition track_stops (s : State) : list HostCall :=
  match videoRef s with
  | Some video =>
      match srcObject video with
      | Some stream => map track_stop (getTracks stream)
      | None => []
      end
  | None => []
  end.

Definition is_predict (c : HostCall) : bool :=
  match c with model_predict _ => true | _ => false end.

Definition is_schedule (c : HostCall) : bool :=
  match c with requestAnimationFrame_call _ => true | _ => false end.

Definition is_getUserMedia (c : HostCall) : bool :=
  match c with getUserMedia_user_facing => true | _ => false end.


(** ** Inputs used in examples *)

(** The list of the specification's example for leading-class selection. *)
Definition predictions_ABC : list Prediction :=
  [mkPrediction "A" lit_0_3; mkPrediction "B" lit_0_7;
   mkPrediction "C" lit_0_7].

(** Lists for the highlight threshold: B at 0.6, at 0.61 and at 0.604. *)
Definition predictions_B60 : list Prediction :=
  [mkPrediction "A" lit_0_3; mkPrediction "B" lit_0_6].

Definition predictions_B61 : list Prediction :=
  [mkPrediction "A" lit_0_3; mkPrediction "B" lit_0_61].

Definition predictions_B604 : list Prediction :=
  [mkPrediction "A" lit_0_3; mkPrediction "B" lit_0_604].

(** A page: the [<video>] element before any stream is attached, a camera
    stream with two tracks, a model with two classes. *)
Definition video0 : HTMLVideoElement := mkVideo None 0.

Definition stream0 : MediaStream := mkMediaStream [7; 8].

Definition model_cat_dog : Model := mkModel ["cat"%string; "dog"%string].

Definition window_ok : Window := mkWindow true true.

Definition window_missing : Window := mkWindow false true.

(** The page once the model is loaded, the camera is active and the video
    has frames to decode: the first callback of the poll is pending. *)
Definition state_polling : State :=
  run (mount window_ok (initialState video0))
    [LoadSettled (Resolved model_cat_dog); ClickStart;
     CameraSettled (Resolved stream0); LoadedMetadata; ReadyStateChange 4].

(** The same page while the inference call of the first frame is in
    flight. *)
Definition state_inferring : State := step state_polling (Frame 1).

(** The page after a failed model load, showing the error. *)
Definition state_load_failed : State :=
  mount window_missing (initialState video0).

Definition is_cancel (c : HostCall) : bool :=
  match c with cancelAnimationFrame_call _ => true | _ => false end.

Definition is_stop (c : HostCall) : bool :=
  match c with track_stop _ => true | _ => false end.

(** What stays true on a page whose model never loaded. *)
Definition never_polls (s : State) : Prop :=
  modelRef s = None /\ awaitingLoad s = 0 /\ awaitingPredict s = 0 /\
  rafPending s = [] /\ predictions s = [] /\
  filter is_schedule (calls s) = [] /\ filter is_predict (calls s) = [].

(** The frame events of [n] consecutive callbacks, the first one under
    [id]. *)
Fixpoint frames_from (id n : nat) : list Event :=
  match n with
  | 0 => []
  | S n => Frame id :: frames_from (S id) n
  end.

(** * Proofs *)

(** ** The literals are the nearest binary64 values *)

(** [m * 2^e] is within half a unit in the last place of the decimal
    numeral [num / den]: [|m * den - num * 2^(-e)| * 2 <= den]. *)
Lemma literals_nearest :
  (Z.abs (5404319552844595 * 10 - 6 * 2 ^ 53) * 2 <= 10 /\
   Z.abs (5404319552844595 * 10 - 3 * 2 ^ 54) * 2 <= 10 /\
   Z.abs (6305039478318694 * 10 - 7 * 2 ^ 53) * 2 <= 10 /\
   Z.abs (5494391545392005 * 100 - 61 * 2 ^ 53) * 2 <= 100 /\
   Z.abs (5440348349863559 * 1000 - 604 * 2 ^ 53) * 2 <= 1000 /\
   Z.abs (8646911284551352 * 1000 - 15 * 2 ^ 59) * 2 <= 1000 /\
   4503599627370496 = 1 * 2 ^ 52 /\
   7036874417766400 = 100 * 2 ^ 46)%Z.
Proof. vm_compute. repeat split; discriminate. Qed.

Lemma literals_valid :
  forallb valid
    [lit_0; lit_1; lit_100; lit_0_6; lit_0_3; lit_0_7; lit_0_61;
     lit_0_604; lit_0_015] = true.
Proof. reflexivity. Qed.

(** ** Order facts on numbers *)

Section NumberOrder.

Local Open Scope Z_scope.

Lemma compare_cont_Eq (m1 m2 : positive) :
  Pos.compare_cont Eq m1 m2 = Pos.compare m1 m2.
Proof. reflexivity. Qed.

Lemma gt_key (a b : number) :
  is_nan a = false -> is_nan b = false ->
  gt a b = true <-> key_lt (key b) (key a).
Proof.
  intros Ha Hb. unfold gt, SFltb.
  destruct a as [sa|sa| |sa ma ea], b as [sb|sb| |sb mb eb];
    try discriminate; try destruct sa; try destruct sb;
    cbn [SFcompare key key_lt];
    try (split; [discriminate | lia]);
    try (split; [lia | reflexivity]);
    try (split; [reflexivity | lia]);
    rewrite ?compare_cont_Eq;
    destruct (Z.compare_spec eb ea);
    try destruct (Pos.compare_spec mb ma);
    cbn [CompOpp];
    (split; [ try discriminate; intros _; lia
            | try reflexivity; intros; exfalso; lia ]).
Qed.

Lemma le_key (a b : number) :
  le a b = true ->
  is_nan a = false /\ is_nan b = false /\ ~ key_lt (key b) (key a).
Proof.
  unfold le, SFleb.
  destruct a as [sa|sa| |sa ma ea], b as [sb|sb| |sb mb eb];
    try discriminate; try destruct sa; try destruct sb;
    cbn [SFcompare key key_lt is_nan];
    try discriminate;
    try (intros _; repeat split; lia);
    rewrite ?compare_cont_Eq;
    destruct (Z.compare_spec ea eb);
    try destruct (Pos.compare_spec ma mb);
    cbn [CompOpp]; try discriminate;
    intros _; repeat split; lia.
Qed.

Lemma key_lt_irrefl (k : Z * Z * Z) : ~ key_lt k k.
Proof. destruct k as [[k1 k2] k3]. cbn. lia. Qed.

Lemma key_lt_trans (a b c : Z * Z * Z) :
  key_lt a b -> key_lt b c -> key_lt a c.
Proof.
  destruct a as [[a1 a2] a3], b as [[b1 b2] b3], c as [[c1 c2] c3].
  cbn. lia.
Qed.

Lemma key_lt_negtrans (a b c : Z * Z * Z) :
  key_lt a c -> key_lt a b \/ key_lt b c.
Proof.
  destruct a as [[a1 a2] a3], b as [[b1 b2] b3], c as [[c1 c2] c3].
  cbn. lia.
Qed.

Lemma gt_irrefl (a : number) : gt a a = false.
Proof.
  destruct (is_nan a) eqn:Ha.
  - destruct a; try discriminate. reflexivity.
  - destruct (gt a a) eqn:G; [|reflexivity].
    apply gt_key in G; auto. destruct (key_lt_irrefl _ G).
Qed.

Lemma gt_not_nan (a b : number) :
  gt a b = true -> is_nan a = false /\ is_nan b = false.
Proof. destruct a, b; try discriminate; split; reflexivity. Qed.

Lemma gt_asym (a b : number) : gt a b = true -> gt b a = false.
Proof.
  intros G. destruct (gt_not_nan _ _ G) as [Ha Hb].
  destruct (gt b a) eqn:G'; [|reflexivity].
  apply gt_key in G; auto. apply gt_key in G'; auto.
  destruct (key_lt_irrefl _ (key_lt_trans _ _ _ G G')).
Qed.

(** [fun a b => gt a b = false] is transitive away from NaN. *)
Lemma gt_false_trans (a b c : number) :
  is_nan a = false -> is_nan b = false -> is_nan c = false ->
  gt a b = false -> gt b c = false -> gt a c = false.
Proof.
  intros Ha Hb Hc G1 G2.
  destruct (gt a c) eqn:G; [|reflexivity].
  apply gt_key in G; auto.
  destruct (key_lt_negtrans _ (key b) _ G) as [K|K];
    apply gt_key in K; auto; congruence.
Qed.

Lemma le_not_gt (a b : number) : le a b = true -> gt a b = false.
Proof.
  intros L. apply le_key in L. destruct L as (Ha & Hb & K).
  destruct (gt a b) eqn:G; [|reflexivity].
  apply gt_key in G; auto. contradiction.
Qed.

Lemma le_not_nan_r (a b : number) : le a b = true -> is_nan b = false.
Proof. intros L. apply le_key in L. tauto. Qed.

End NumberOrder.

(** ** Leading-class selection *)

Section TopPrediction.

(** What the fold returns, for any accumulator: the accumulator itself
    when it is above every entry, and otherwise the last of the entries
    that no entry and no accumulator is above. *)
Lemma fold_topPrediction_step (l : list Prediction) :
  forall acc : Prediction,
    not_nan acc -> Forall not_nan l ->
    let r := fold_left topPrediction_step l acc in
    (r = acc /\
     forall q, In q l -> gt (probability acc) (probability q) = true)
    \/
    (exists i : nat,
        nth_error l i = Some r /\
        gt (probability acc) (probability r) = false /\
        (forall q, In q l -> gt (probability q) (probability r) = false) /\
        (forall j q, i < j -> nth_error l j = Some q ->
                     gt (probability r) (probability q) = true)).
Proof.
  induction l as [|x l IH]; intros acc Hacc Hl; cbn [fold_left].
  - left. split; [reflexivity|]. intros q [].
  - inversion Hl as [|? ? Hx Hl']; subst.
    destruct (gt (probability acc) (probability x)) eqn:G.
    + (* the accumulator is kept *)
      replace (topPrediction_step acc x) with acc
        by (unfold topPrediction_step; rewrite G; reflexivity).
      destruct (IH acc Hacc Hl') as [[E A]|(i & Hi & Ga & Hmax & Hlast)].
      * left. cbn zeta in *. split; [exact E|].
        intros q [<-|Hq]; auto.
      * right. exists (S i). cbn zeta in *.
        set (r := fold_left topPrediction_step l acc) in *.
        assert (Hr : not_nan r).
        { apply nth_error_In in Hi.
          rewrite Forall_forall in Hl'. auto. }
        split; [exact Hi|]. split; [exact Ga|]. split.
        -- intros q [<-|Hq]; auto.
           eapply gt_false_trans with (b := probability acc); auto.
           apply gt_asym; assumption.
        -- intros [|j] q Hj Hq; [lia|].
           cbn in Hq. apply (Hlast j q); [lia|assumption].
    + (* the current entry replaces the accumulator *)
      replace (topPrediction_step acc x) with x
        by (unfold topPrediction_step; rewrite G; reflexivity).
      destruct (IH x Hx Hl') as [[E A]|(i & Hi & Ga & Hmax & Hlast)].
      * right. exists 0. cbn zeta in *. rewrite E.
        split; [reflexivity|]. split; [exact G|]. split.
        -- intros q [<-|Hq]; [apply gt_irrefl|].
           apply gt_asym. auto.
        -- intros [|j] q Hj Hq; [lia|].
           cbn in Hq. apply A. eapply nth_error_In; eauto.
      * right. exists (S i). cbn zeta in *.
        set (r := fold_left topPrediction_step l x) in *.
        assert (Hr : not_nan r).
        { apply nth_error_In in Hi.
          rewrite Forall_forall in Hl'. auto. }
        split; [exact Hi|]. split.
        -- eapply gt_false_trans with (b := probability x); auto.
        -- split.
           ++ intros q [<-|Hq]; auto.
           ++ intros [|j] q Hj Hq; [lia|].
              cbn in Hq. apply (Hlast j q); [lia|assumption].
Qed.

(** With no prediction the placeholder is returned. *)
Lemma topPrediction_nil : topPrediction [] = topPrediction_init.
Proof. reflexivity. Qed.

End TopPrediction.

(** C1, as stated, fails: on [(A,0.3),(B,0.7),(C,0.7)] the selected class
    is C, the last of the two entries of greatest probability, not B. *)
Lemma topPrediction_tie_not_first :
  className (topPrediction predictions_ABC) = "C"%string /\
  className (topPrediction predictions_ABC) <> "B"%string.
Proof. split; [reflexivity | discriminate]. Qed.

(** C1 (amended): for a non-empty list of predictions whose probabilities
    are numbers not below 0, [topPrediction] is an entry of the list that
    no entry exceeds, and every entry after it is strictly below it: ties
    go to the last entry of greatest probability. *)
Theorem topPrediction_last_max (predictions : list Prediction) :
  predictions <> [] ->
  Forall (fun q => le lit_0 (probability q) = true) predictions ->
  exists i : nat,
    nth_error predictions i = Some (topPrediction predictions) /\
    (forall q, In q predictions ->
       gt (probability q) (probability (topPrediction predictions)) = false) /\
    (forall j q, i < j -> nth_error predictions j = Some q ->
       gt (probability (topPrediction predictions)) (probability q) = true).
Proof.
  intros Hne Hpos.
  assert (Hnn : Forall not_nan predictions).
  { eapply Forall_impl; [|exact Hpos].
    intros q Hq. exact (le_not_nan_r _ _ Hq). }
  destruct (fold_topPrediction_step predictions topPrediction_init
              eq_refl Hnn) as [[_ A]|(i & Hi & _ & Hmax & Hlast)].
  - destruct predictions as [|x l]; [congruence|].
    inversion Hpos as [|? ? Hx _]; subst.
    apply le_not_gt in Hx.
    specialize (A x (or_introl eq_refl)). cbn in A.
    congruence.
  - exists i. auto.
Qed.

Lemma topPrediction_last_max_witness :
  exists i : nat,
    nth_error predictions_ABC i = Some (topPrediction predictions_ABC) /\
    (forall q, In q predictions_ABC ->
       gt (probability q) (probability (topPrediction predictions_ABC))
       = false) /\
    (forall j q, i < j -> nth_error predictions_ABC j = Some q ->
       gt (probability (topPrediction predictions_ABC)) (probability q)
       = true).
Proof.
  apply (topPrediction_last_max predictions_ABC).
  - discriminate.
  - repeat constructor.
Defined.

(** ** Highlight of the leading class *)

(** C4: a rendered bar is highlighted exactly when the binary64
    probability of its prediction is strictly above 0.6 and its class name
    is that of the selected leading class.  B at 0.6 is not highlighted, B
    at 0.61 is; B at 0.604 prints the same percentage as B at 0.6, "60",
    and is highlighted, so the comparison is on the number itself. *)
Theorem isTopPrediction_threshold :
  (forall (predictions : list Prediction) (p : Prediction) (highlighted : bool),
      In (p, highlighted) (renderBars predictions) ->
      (highlighted = true <->
       gt (probability p) lit_0_6 = true /\
       className p = className (topPrediction predictions)))
  /\ map snd (renderBars predictions_B60) = [false; false]
  /\ map snd (renderBars predictions_B61) = [false; true]
  /\ map snd (renderBars predictions_B604) = [false; true]
  /\ (forall Number_toString,
        map (percentage Number_toString) predictions_B60
        = ["30"%string; "60"%string] /\
        map (percentage Number_toString) predictions_B604
        = ["30"%string; "60"%string]).
Proof.
  split; [|repeat split; reflexivity].
  intros predictions p highlighted Hin.
  unfold renderBars in Hin. apply in_map_iff in Hin.
  destruct Hin as (q & E & _). inversion E; subst q highlighted; clear E.
  unfold isTopPrediction. rewrite andb_true_iff, String.eqb_eq.
  reflexivity.
Qed.

Lemma isTopPrediction_threshold_witness :
  In (mkPrediction "B" lit_0_61, true) (renderBars predictions_B61) /\
  (true = true <->
   gt (probability (mkPrediction "B" lit_0_61)) lit_0_6 = true /\
   className (mkPrediction "B" lit_0_61)
   = className (topPrediction predictions_B61)).
Proof.
  assert (H : In (mkPrediction "B" lit_0_61, true)
                (renderBars predictions_B61))
    by (right; left; reflexivity).
  split; [exact H|].
  exact (proj1 isTopPrediction_threshold _ _ _ H).
Defined.

(** ** Reasoning on states *)

Ltac state_simpl :=
  cbn [isLoadingModel isStartingWebcam webcamActive predictions error
       videoRef modelRef requestAnimationFrameRef rafNext rafPending
       awaitingLoad awaitingCamera awaitingMetadata awaitingPredict calls
       with_isLoadingModel with_isStartingWebcam with_webcamActive
       with_predictions with_error with_videoRef with_modelRef
       with_requestAnimationFrameRef with_rafNext with_rafPending
       with_awaitingLoad with_awaitingCamera with_awaitingMetadata
       with_awaitingPredict with_calls log
       requestAnimationFrame cancelAnimationFrame schedule_predictLoop] in *.

Ltac state_unfold :=
  unfold unmount, cleanups, detach_videoRef, mount,
    rerun_effect_predictLoop, effect_predictLoop,
    cleanup_predictLoop, predictLoop_settled, predictLoop_begin,
    loadModel_settled, loadModel_begin, startWebcam_begin,
    startWebcam_settled, startWebcam_loadedmetadata, startButton_enabled,
    predictLoop_ready, truthy.

Ltac state_cases :=
  repeat match goal with
    | |- context [if ?c then _ else _] => destruct c eqn:?
    | |- context [match ?o with Some _ => _ | None => _ end] =>
        destruct o eqn:?
    | |- context [match ?o with Resolved _ => _ | Rejected => _ end] =>
        destruct o
    | |- context [match ?o with
                  | DetachBeforeCleanups => _
                  | DetachAfterCleanups => _
                  end] => destruct o
    end.

Section Frames.

Lemma with_calls_same (s : State) : with_calls (calls s) s = s.
Proof. destruct s; reflexivity. Qed.

Lemma fold_track_stop (tracks : list MediaStreamTrack) :
  forall s : State,
    fold_left (fun s track => log (track_stop track) s) tracks s
    = with_calls (calls s ++ map track_stop tracks) s.
Proof.
  induction tracks as [|t tracks IH]; intros s; cbn [fold_left map].
  - rewrite app_nil_r. symmetry. apply with_calls_same.
  - rewrite IH. destruct s; cbn. rewrite <- app_assoc. reflexivity.
Qed.

(** The cleanup of the last effect only adds [stop] calls. *)
Lemma cleanup_tracks_calls (s : State) :
  cleanup_tracks s = with_calls (calls s ++ track_stops s) s.
Proof.
  unfold cleanup_tracks, track_stops.
  destruct (videoRef s) as [video|].
  - destruct (srcObject video) as [stream|].
    + apply fold_track_stop.
    + rewrite app_nil_r. symmetry. apply with_calls_same.
  - rewrite app_nil_r. symmetry. apply with_calls_same.
Qed.

Lemma filter_track_stops (f : HostCall -> bool) (s : State) :
  (forall t, f (track_stop t) = false) ->
  filter f (track_stops s) = [].
Proof.
  intros Hf. unfold track_stops.
  destruct (videoRef s) as [video|]; [|reflexivity].
  destruct (srcObject video) as [stream|]; [|reflexivity].
  induction (getTracks stream) as [|t l IH]; [reflexivity|].
  cbn. rewrite Hf. exact IH.
Qed.

End Frames.

(** ** [startWebcam] *)

(** C6: while the camera is active or starting, [startWebcam] returns the
    state it was given: no flag changes and no [getUserMedia] request is
    added to the calls or to the pending promises.  An active camera that
    is not starting stays so under every event, with no further
    request. *)
Theorem startWebcam_idempotent :
  (forall s : State,
      webcamActive s = true \/ isStartingWebcam s = true ->
      startWebcam_begin s = s) /\
  (forall (s : State) (ev : Event),
      webcamActive s = true -> isStartingWebcam s = false ->
      webcamActive (step s ev) = true /\
      isStartingWebcam (step s ev) = false /\
      filter is_getUserMedia (calls (step s ev))
      = filter is_getUserMedia (calls s)).
Proof.
  split.
  - intros s H. unfold startWebcam_begin.
    destruct H as [-> | ->]; [reflexivity|].
    rewrite orb_true_r. reflexivity.
  - intros s ev Ha Hs.
    destruct ev as [o| |o| |n|id|o|order]; cbn [step]; state_unfold;
      rewrite ?cleanup_tracks_calls;
      try rewrite Ha; try rewrite Hs; state_cases; state_simpl;
      rewrite ?filter_app, ?filter_track_stops by reflexivity;
      cbn [filter is_getUserMedia]; rewrite ?app_nil_r;
      auto; discriminate.
Qed.

Lemma startWebcam_idempotent_witness :
  startWebcam_begin state_polling = state_polling /\
  webcamActive (step state_polling ClickStart) = true /\
  isStartingWebcam (step state_polling ClickStart) = false /\
  filter is_getUserMedia (calls (step state_polling ClickStart))
  = filter is_getUserMedia (calls state_polling).
Proof.
  split.
  - apply (proj1 startWebcam_idempotent state_polling).
    left. reflexivity.
  - apply (proj2 startWebcam_idempotent state_polling ClickStart);
      reflexivity.
Defined.

(** C9: a call of [startWebcam] that passes the guard leaves the error
    empty, whatever it was, and issues the camera request; the error is
    still empty once the request is granted and once the metadata event
    has marked the camera active. *)
Theorem startWebcam_clears_error (s : State) :
  webcamActive s = false -> isStartingWebcam s = false ->
  let s1 := startWebcam_begin s in
  error s1 = None /\
  calls s1 = calls s ++ [getUserMedia_user_facing] /\
  forall stream : MediaStream,
    let s2 := startWebcam_settled (Resolved stream) s1 in
    let s3 := startWebcam_loadedmetadata s2 in
    error s2 = None /\ error s3 = None /\ webcamActive s3 = true.
Proof.
  intros Ha Hs. state_unfold. rewrite Ha, Hs. cbn [orb].
  state_simpl. repeat split; state_cases; state_simpl; reflexivity.
Qed.

Lemma startWebcam_clears_error_witness :
  error state_load_failed = Some error_libraries_missing /\
  let s1 := startWebcam_begin state_load_failed in
  error s1 = None /\
  calls s1 = calls state_load_failed ++ [getUserMedia_user_facing] /\
  forall stream : MediaStream,
    let s2 := startWebcam_settled (Resolved stream) s1 in
    let s3 := startWebcam_loadedmetadata s2 in
    error s2 = None /\ error s3 = None /\ webcamActive s3 = true.
Proof.
  split; [reflexivity|].
  apply (startWebcam_clears_error state_load_failed); reflexivity.
Defined.

(** ** [predictLoop] *)

Section PredictLoop.

Lemma remove_fresh (id : nat) (l : list nat) :
  ~ In id l -> remove Nat.eq_dec id (l ++ [id]) = l.
Proof.
  intros H. rewrite remove_app, (notin_remove Nat.eq_dec l id H).
  cbn. destruct (Nat.eq_dec id id); [|congruence]. apply app_nil_r.
Qed.

Lemma remove_single (id : nat) : remove Nat.eq_dec id [id] = [].
Proof. cbn. destruct (Nat.eq_dec id id); [reflexivity|congruence]. Qed.

Lemma existsb_eqb_false (id : nat) (l : list nat) :
  ~ In id l -> existsb (Nat.eqb id) l = false.
Proof.
  intros H. destruct (existsb (Nat.eqb id) l) eqn:E; [|reflexivity].
  apply existsb_exists in E. destruct E as (x & Hx & Ex).
  apply Nat.eqb_eq in Ex. subst x. contradiction.
Qed.

End PredictLoop.

(** C2, as stated, fails: on the page polling with an inference call in
    flight, a rejection of that call ends the step with no callback
    pending and no inference in flight, although nothing was ever
    cancelled; no later frame runs the loop. *)
Lemma predictLoop_rejection_stops_loop :
  let s := step state_inferring (PredictSettled Rejected) in
  rafPending state_polling = [1] /\
  awaitingPredict state_inferring = 1 /\
  rafPending s = [] /\ awaitingPredict s = 0 /\
  filter is_cancel (calls s) = [] /\
  forall id, step s (Frame id) = s.
Proof. cbv zeta. repeat split. Qed.

(** C2 (amended): a step of [predictLoop] that skips the inference call
    (no model, no video, or too little video data) or whose inference call
    resolves ends by scheduling itself: one callback more is pending, under
    the fresh id, which the ref holds; a step whose inference call rejects
    schedules nothing.  Cancelling the id held by the ref removes the
    callback, and the frame event of a cancelled id runs nothing. *)
Theorem predictLoop_reschedules (s : State) :
  (predictLoop_ready s = false ->
   predictLoop_begin s = schedule_predictLoop s) /\
  (rafPending (schedule_predictLoop s) = rafPending s ++ [rafNext s] /\
   requestAnimationFrameRef (schedule_predictLoop s) = rafNext s /\
   calls (schedule_predictLoop s)
   = calls s ++ [requestAnimationFrame_call (rafNext s)]) /\
  (forall predictionResult : list Prediction,
      let s' := predictLoop_settled (Resolved predictionResult) s in
      predictions s' = predictionResult /\
      rafPending s' = rafPending s ++ [rafNext s] /\
      requestAnimationFrameRef s' = rafNext s /\
      calls s' = calls s ++ [requestAnimationFrame_call (rafNext s)]) /\
  (let s' := predictLoop_settled Rejected s in
   rafPending s' = rafPending s /\
   requestAnimationFrameRef s' = requestAnimationFrameRef s /\
   calls s' = calls s) /\
  (~ In (rafNext s) (rafPending s) ->
   let s' := schedule_predictLoop s in
   let s'' := cancelAnimationFrame (requestAnimationFrameRef s') s' in
   rafPending s'' = rafPending s /\
   step s'' (Frame (rafNext s)) = s'').
Proof.
  repeat split; state_unfold; state_simpl; try reflexivity.
  - intros ->. reflexivity.
  - apply remove_fresh. assumption.
  - cbn [step]. state_simpl. rewrite remove_fresh by assumption.
    rewrite existsb_eqb_false by assumption. reflexivity.
Qed.

Lemma predictLoop_reschedules_witness :
  predictLoop_ready (initialState video0) = false /\
  ~ In (rafNext (initialState video0)) (rafPending (initialState video0)) /\
  predictLoop_begin (initialState video0)
  = schedule_predictLoop (initialState video0) /\
  let s' := schedule_predictLoop (initialState video0) in
  let s'' := cancelAnimationFrame (requestAnimationFrameRef s') s' in
  rafPending s'' = rafPending (initialState video0) /\
  step s'' (Frame (rafNext (initialState video0))) = s''.
Proof.
  assert (H : ~ In (rafNext (initialState video0))
                (rafPending (initialState video0))) by (intros []).
  split; [reflexivity|]. split; [exact H|]. split.
  - apply (proj1 (predictLoop_reschedules (initialState video0))).
    reflexivity.
  - apply (proj2 (proj2 (proj2 (proj2
             (predictLoop_reschedules (initialState video0)))))).
    exact H.
Defined.

(** ** Teardown *)

Section Teardown.

(** After teardown the video element is no longer reachable through
    [videoRef]. *)
Lemma unmount_detaches (order : RefDetach) (s : State) :
  videoRef (unmount order s) = None.
Proof.
  destruct order; unfold unmount, cleanups; rewrite ?cleanup_tracks_calls;
    state_unfold; state_cases; reflexivity.
Qed.

(** When the cleanups run before the ref is detached, teardown with a
    stream on the video element issues one [stop] call per track of the
    stream, in order, after the calls of the first cleanup. *)
Lemma unmount_stops_tracks (s : State) (video : HTMLVideoElement)
      (stream : MediaStream) :
  videoRef s = Some video -> srcObject video = Some stream ->
  calls (unmount DetachAfterCleanups s)
  = calls (cleanup_predictLoop s) ++ map track_stop (getTracks stream).
Proof.
  intros Hv Hs. unfold unmount, cleanups, detach_videoRef.
  rewrite cleanup_tracks_calls.
  state_simpl. unfold track_stops.
  replace (videoRef (cleanup_predictLoop s)) with (Some video).
  - rewrite Hs. reflexivity.
  - rewrite <- Hv. state_unfold. state_cases; reflexivity.
Qed.

(** When the ref is detached before the cleanups run, the cleanup of the
    last effect finds [videoRef.current] empty: no track receives
    [stop], whatever stream the video element carried. *)
Lemma unmount_detached_stops_nothing (s : State) :
  filter is_stop (calls (unmount DetachBeforeCleanups s))
  = filter is_stop (calls s).
Proof.
  unfold unmount, cleanups, detach_videoRef, cleanup_tracks.
  assert (H : videoRef (cleanup_predictLoop (with_videoRef None s)) = None)
    by (state_unfold; state_cases; reflexivity).
  rewrite H. state_unfold. state_cases; state_simpl; [|reflexivity].
  rewrite filter_app. cbn. apply app_nil_r.
Qed.

(** Teardown while the callback scheduled last is the only one pending
    (no inference call in flight) leaves no callback pending. *)
Lemma unmount_cancels_pending (order : RefDetach) (s : State) :
  requestAnimationFrameRef s <> 0 ->
  rafPending s = [requestAnimationFrameRef s] ->
  rafPending (unmount order s) = [].
Proof.
  intros Hid Hp. apply Nat.eqb_neq in Hid.
  destruct order; unfold unmount, cleanups, detach_videoRef;
    rewrite cleanup_tracks_calls; state_simpl; state_unfold;
    state_simpl; rewrite Hid; cbn [negb]; state_simpl;
    rewrite Hp; cbn;
    (destruct (Nat.eq_dec (requestAnimationFrameRef s)
                 (requestAnimationFrameRef s)); [reflexivity|congruence]).
Qed.

(** With the ref detached, a callback of the poll that fires skips the
    inference call and schedules the next callback. *)
Lemma detached_frame_reschedules (s : State) (id : nat) :
  videoRef s = None -> rafPending s = [id] ->
  let s' := step s (Frame id) in
  videoRef s' = None /\
  rafPending s' = [rafNext s] /\
  rafNext s' = S (rafNext s) /\
  calls s' = calls s ++ [requestAnimationFrame_call (rafNext s)].
Proof.
  intros Hv Hp. cbn [step]. rewrite Hp. cbn [existsb].
  rewrite Nat.eqb_refl. cbn [orb]. rewrite remove_single.
  unfold predictLoop_begin, predictLoop_ready. state_simpl.
  rewrite Hv. destruct (modelRef s); state_simpl; repeat split; auto.
Qed.

(** So the poll runs for ever: after [n] more frames one callback is
    still pending, and no inference call and no [stop] call was added. *)
Lemma detached_poll_spins (n : nat) :
  forall (s : State) (id : nat),
    videoRef s = None -> rafPending s = [id] -> rafNext s = S id ->
    let s' := run s (frames_from id n) in
    videoRef s' = None /\
    rafPending s' = [id + n] /\
    filter is_predict (calls s') = filter is_predict (calls s) /\
    filter is_stop (calls s') = filter is_stop (calls s).
Proof.
  induction n as [|n IH]; intros s id Hv Hp Hn; cbn [frames_from run fold_left].
  - rewrite Nat.add_0_r. auto.
  - destruct (detached_frame_reschedules s id Hv Hp)
      as (Hv' & Hp' & Hn' & Hc').
    rewrite Hn in Hp', Hn'.
    destruct (IH (step s (Frame id)) (S id) Hv' Hp' Hn')
      as (Hv'' & Hp'' & Hi & Hs).
    unfold run in Hv'', Hp'', Hi, Hs.
    rewrite Hc', !filter_app in Hi, Hs. cbn in Hi, Hs.
    rewrite !app_nil_r in Hi, Hs.
    replace (id + S n) with (S id + n) by lia.
    auto.
Qed.

End Teardown.

(** C3 fails on the code: teardown of the polling page, whose video
    element carries the stream with tracks 7 and 8, while the inference
    call of a frame is in flight.  The id that is cancelled is the one of
    the callback that already ran, so nothing is pending right after
    teardown; when the inference call resolves, the loop schedules itself
    again (id 2), and from then on every callback finds [videoRef.current]
    empty, skips the inference call and schedules the next one: after [n]
    more frames a callback is still pending.  The tracks are stopped only
    when the cleanups run before the ref is detached; when the ref is
    detached first, no track receives [stop]. *)
Theorem unmount_during_inference_reschedules (order : RefDetach) (n : nat) :
  let torn_down := step state_inferring (Unmount order) in
  let resumed := step torn_down (PredictSettled (Resolved predictions_B61)) in
  let later := run resumed (frames_from 2 n) in
  webcamActive state_inferring = true /\
  videoRef state_inferring = Some (mkVideo (Some stream0) 4) /\
  awaitingPredict state_inferring = 1 /\
  videoRef torn_down = None /\
  filter is_cancel (calls torn_down) = [cancelAnimationFrame_call 1] /\
  rafPending torn_down = [] /\
  filter is_stop (calls torn_down)
  = match order with
    | DetachBeforeCleanups => []
    | DetachAfterCleanups => [track_stop 7; track_stop 8]
    end /\
  rafPending resumed = [2] /\
  rafPending later = [2 + n] /\
  filter is_predict (calls later) = filter is_predict (calls torn_down) /\
  filter is_stop (calls later) = filter is_stop (calls torn_down).
Proof.
  cbv zeta.
  assert (H : forall o,
             let resumed :=
               step (step state_inferring (Unmount o))
                 (PredictSettled (Resolved predictions_B61)) in
             videoRef resumed = None /\ rafPending resumed = [2] /\
             rafNext resumed = 3 /\
             filter is_predict (calls resumed)
             = filter is_predict (calls (step state_inferring (Unmount o)))
             /\
             filter is_stop (calls resumed)
             = filter is_stop (calls (step state_inferring (Unmount o))))
    by (intros [|]; cbv zeta; repeat split).
  destruct (H order) as (Hv & Hp & Hn & Hi & Hs).
  destruct (detached_poll_spins n _ 2 Hv Hp Hn) as (_ & Hp' & Hi' & Hs').
  rewrite Hi', Hs', Hi, Hs.
  destruct order; repeat split; exact Hp'.
Qed.

(** ** A page whose model did not load *)

Section NeverPolls.

Lemma step_never_polls (s : State) (ev : Event) :
  never_polls s -> never_polls (step s ev).
Proof.
  unfold never_polls.
  intros (Hm & Hl & Hp & Hr & Hq & Hs & Hi).
  destruct ev as [o| |o| |n|id|o|order]; cbn [step]; state_unfold;
    rewrite ?cleanup_tracks_calls;
    rewrite ?Hm, ?Hl, ?Hp, ?Hr; cbn [Nat.eqb existsb andb];
    state_cases; state_simpl;
    rewrite ?filter_app, ?filter_track_stops by reflexivity;
    cbn [filter is_schedule is_predict app];
    rewrite ?Hs, ?Hi, ?Hr; cbn [remove app];
    repeat split; auto; try discriminate; try congruence;
    match goal with
    | H : context [modelRef s] |- _ => rewrite Hm in H; discriminate H
    end.
Qed.

Lemma run_never_polls (evs : list Event) :
  forall s : State, never_polls s -> never_polls (run s evs).
Proof.
  induction evs as [|ev evs IH]; intros s H; [exact H|].
  cbn [run fold_left]. apply IH, step_never_polls, H.
Qed.

Lemma mount_load_failed_never_polls
      (video : HTMLVideoElement) (window : Window) :
  never_polls (step (mount window (initialState video))
                 (LoadSettled Rejected)).
Proof.
  unfold never_polls.
  destruct window as [[|] [|]]; cbn; repeat split.
Qed.

End NeverPolls.

(** ** [loadModel] *)

(** C7: when one of the two globals of the model runtime is missing,
    [loadModel] sets the error to a message that is not the camera
    message, clears [isLoadingModel], stores no model handle and issues
    no load call; on the page mounted that way no later event stores a
    handle. *)
Theorem loadModel_dependency_missing (window : Window) :
  tmImage window = false \/ tf window = false ->
  (forall s : State,
      let s' := loadModel_begin window s in
      error s' = Some error_libraries_missing /\
      isLoadingModel s' = false /\
      modelRef s' = modelRef s /\
      awaitingLoad s' = awaitingLoad s /\
      calls s' = calls s) /\
  error_libraries_missing <> error_camera /\
  (forall (video : HTMLVideoElement) (evs : list Event),
      let s := run (mount window (initialState video)) evs in
      modelRef s = None /\
      error (mount window (initialState video))
      = Some error_libraries_missing /\
      isLoadingModel (mount window (initialState video)) = false).
Proof.
  intros H.
  assert (E : negb (tmImage window) || negb (tf window) = true)
    by (destruct H as [-> | ->]; destruct (tmImage window); reflexivity).
  split; [|split].
  - intros s. unfold loadModel_begin. rewrite E.
    state_simpl. repeat split.
  - discriminate.
  - intros video evs.
    assert (M : mount window (initialState video)
                = with_isLoadingModel false
                    (with_error (Some error_libraries_missing)
                       (initialState video))).
    { unfold mount, loadModel_begin. rewrite E. reflexivity. }
    cbv zeta. rewrite M. split; [|split; reflexivity].
    apply (run_never_polls evs). unfold never_polls. cbn. repeat split.
Qed.

Lemma loadModel_dependency_missing_witness :
  (let s' := loadModel_begin window_missing (initialState video0) in
   error s' = Some error_libraries_missing /\
   isLoadingModel s' = false /\
   modelRef s' = None /\
   awaitingLoad s' = 0 /\
   calls s' = []) /\
  modelRef (run state_load_failed
              [ClickStart; CameraSettled (Resolved stream0)]) = None.
Proof.
  assert (H : tmImage window_missing = false \/ tf window_missing = false)
    by (left; reflexivity).
  split.
  - apply (proj1 (loadModel_dependency_missing window_missing H)
             (initialState video0)).
  - apply (proj2 (proj2 (loadModel_dependency_missing window_missing H))
             video0 [ClickStart; CameraSettled (Resolved stream0)]).
Defined.

(** C8: when the load resolves with a model whose labels are [L], the
    published predictions are [map (fun l => (l, 0)) L], the handle is
    stored and [isLoadingModel] is cleared; on a page whose globals are
    present this happens with no inference call issued, and labels
    ["cat"; "dog"] give [(cat,0); (dog,0)]. *)
Theorem loadModel_initial_predictions :
  (forall (model : Model) (s : State),
      let s' := loadModel_settled (Resolved model) s in
      predictions s'
      = map (fun label => mkPrediction label (S754_zero false))
          (getClassLabels model) /\
      modelRef s' = Some model /\
      isLoadingModel s' = false /\
      error s' = error s) /\
  (forall (video : HTMLVideoElement) (model : Model),
      let s' := run (mount window_ok (initialState video))
                  [LoadSettled (Resolved model)] in
      predictions s'
      = map (fun label => mkPrediction label (S754_zero false))
          (getClassLabels model) /\
      existsb is_predict (calls s') = false /\
      rafPending s' = []) /\
  predictions
    (run (mount window_ok (initialState video0))
       [LoadSettled (Resolved model_cat_dog)])
  = [mkPrediction "cat" (S754_zero false);
     mkPrediction "dog" (S754_zero false)].
Proof.
  split; [|split].
  - intros model s. destruct s; cbn. repeat split.
  - intros video model. cbn. repeat split.
  - reflexivity.
Qed.

(** ** The poll and its preconditions *)

(** C10: the effect schedules the poll exactly when the camera is active
    and a model handle is stored, and otherwise changes nothing.  On a
    page whose model load failed (a missing global, or a rejected load),
    whatever events follow: no handle is stored, no callback is pending,
    no callback and no inference call was ever requested, and the
    published predictions are empty. *)
Theorem poll_needs_camera_and_model :
  (forall s : State,
      effect_predictLoop s
      = if webcamActive s && truthy (modelRef s)
        then schedule_predictLoop s else s) /\
  (forall s : State,
      webcamActive s = false \/ modelRef s = None ->
      effect_predictLoop s = s) /\
  (forall (video : HTMLVideoElement) (window : Window) (evs : list Event),
      let s := run (mount window (initialState video))
                 (LoadSettled Rejected :: evs) in
      modelRef s = None /\
      rafPending s = [] /\
      predictions s = [] /\
      filter is_schedule (calls s) = [] /\
      filter is_predict (calls s) = []).
Proof.
  split; [reflexivity|]. split.
  - intros s [H|H]; unfold effect_predictLoop; rewrite H;
      [reflexivity|]. rewrite andb_false_r. reflexivity.
  - intros video window evs. cbn [run fold_left].
    destruct (run_never_polls evs _
                (mount_load_failed_never_polls video window))
      as (Hm & _ & _ & Hr & Hq & Hs & Hi).
    auto.
Qed.

Lemma poll_needs_camera_and_model_witness :
  effect_predictLoop state_load_failed = state_load_failed /\
  let s := run (mount window_missing (initialState video0))
             [LoadSettled Rejected; ClickStart;
              CameraSettled (Resolved stream0); LoadedMetadata;
              ReadyStateChange 4; Frame 1] in
  webcamActive s = true /\ rafPending s = [] /\ predictions s = [].
Proof.
  split.
  - apply (proj1 (proj2 poll_needs_camera_and_model) state_load_failed).
    right. reflexivity.
  - split; [reflexivity|].
    destruct (proj2 (proj2 poll_needs_camera_and_model) video0
                window_missing
                [ClickStart; CameraSettled (Resolved stream0);
                 LoadedMetadata; ReadyStateChange 4; Frame 1])
      as (_ & Hr & Hq & _).
    split; assumption.
Defined.

(** ** Rounding of binary64 products *)

Section Rounding.

Local Open Scope Z_scope.

Lemma digits2_pos_size (m : positive) : digits2_pos m = Pos.size m.
Proof. induction m; cbn; congruence. Qed.

(** A positive mantissa of [d] digits lies in [[2^(d-1), 2^d)]. *)
Lemma digits2_bounds (m : positive) :
  2 ^ (Z.pos (digits2_pos m) - 1) <= Z.pos m < 2 ^ Z.pos (digits2_pos m).
Proof.
  rewrite digits2_pos_size. split.
  - pose proof (Pos.size_le m) as H.
    apply Pos2Z.pos_le_pos in H.
    rewrite Pos2Z.inj_pow in H.
    change (Z.pos m~0) with (2 * Z.pos m) in H.
    replace (Z.pos (Pos.size m)) with (Z.pos (Pos.size m) - 1 + 1) in H
      by lia.
    rewrite Z.pow_add_r in H by lia. change (2 ^ 1) with 2 in H. lia.
  - pose proof (Pos.size_gt m) as H.
    apply Pos2Z.pos_lt_pos in H.
    rewrite Pos2Z.inj_pow in H. exact H.
Qed.

Lemma shr_1_m (mrs : shr_record) :
  0 <= shr_m mrs -> shr_m (shr_1 mrs) = shr_m mrs / 2.
Proof.
  destruct mrs as [m r s]. cbn [shr_m]. intros Hm.
  rewrite <- Z.div2_div.
  destruct m as [|[p|p|]|p]; try reflexivity. lia.
Qed.

Lemma iter_shr_1_m (p : positive) :
  forall mrs : shr_record,
    0 <= shr_m mrs ->
    shr_m (iter_pos shr_1 p mrs) = shr_m mrs / 2 ^ Z.pos p.
Proof.
  assert (Hpow : forall q : positive, 0 < 2 ^ Z.pos q)
    by (intros q; apply Z.pow_pos_nonneg; lia).
  assert (Hnn : forall mrs, 0 <= shr_m mrs -> 0 <= shr_m (shr_1 mrs)).
  { intros mrs H. rewrite shr_1_m by assumption.
    apply Z.div_pos; lia. }
  induction p as [p IH|p IH|]; intros mrs Hm; cbn [iter_pos].
  - rewrite IH; [rewrite IH; [rewrite shr_1_m by assumption|]|].
    + rewrite !Z.div_div by (specialize (Hpow p); lia).
      f_equal. replace (Z.pos p~1) with (1 + Z.pos p + Z.pos p) by lia.
      rewrite !Z.pow_add_r by lia. change (2 ^ 1) with 2. ring.
    + auto.
    + rewrite IH by auto. apply Z.div_pos; [auto|apply Hpow].
  - rewrite IH; [rewrite IH by assumption|].
    + rewrite Z.div_div by (specialize (Hpow p); lia).
      f_equal. replace (Z.pos p~0) with (Z.pos p + Z.pos p) by lia.
      rewrite Z.pow_add_r by lia. reflexivity.
    + rewrite IH by assumption. apply Z.div_pos; [assumption|apply Hpow].
  - rewrite shr_1_m by assumption. reflexivity.
Qed.

(** Shifting an exact mantissa right by [n] places. *)
Lemma shr_exact (m e n : Z) :
  0 <= m ->
  shr_m (fst (shr (Build_shr_record m false false) e n))
  = m / 2 ^ Z.max n 0 /\
  snd (shr (Build_shr_record m false false) e n) = e + Z.max n 0.
Proof.
  intros Hm. destruct n as [|p|p]; cbn [shr fst snd shr_m].
  - cbn. rewrite Z.div_1_r. lia.
  - rewrite iter_shr_1_m by assumption. cbn [shr_m].
    rewrite Z.max_l by lia. split; reflexivity.
  - rewrite Z.max_r by lia. cbn. rewrite Z.div_1_r. lia.
Qed.

Lemma round_nearest_even_bounds (q : Z) (l : location) :
  q <= round_nearest_even q l <= q + 1.
Proof.
  destruct l as [|[| |]]; cbn [round_nearest_even]; try lia.
  destruct (Z.even q); lia.
Qed.

(** The two shifts and the rounding of [binary_round_aux], for a
    positive exact mantissa. *)
Lemma binary_round_aux_exact (mx ex : Z) :
  0 < mx ->
  exists s1 s2 m1 : Z,
    s1 = Z.max (fexp prec emax (Zdigits2 mx + ex) - ex) 0 /\
    mx / 2 ^ s1 <= m1 <= mx / 2 ^ s1 + 1 /\
    s2 = Z.max (fexp prec emax (Zdigits2 m1 + (ex + s1)) - (ex + s1)) 0 /\
    binary_round_aux prec emax false mx ex loc_Exact
    = match m1 / 2 ^ s2 with
      | Z0 => S754_zero false
      | Z.pos m2 =>
          if ex + s1 + s2 <=? emax - prec
          then S754_finite false m2 (ex + s1 + s2)
          else S754_infinity false
      | Z.neg _ => S754_nan
      end.
Proof.
  intros Hmx. unfold binary_round_aux, shr_fexp.
  cbn [shr_record_of_loc].
  pose proof (shr_exact mx ex (fexp prec emax (Zdigits2 mx + ex) - ex)
                ltac:(lia)) as [Hm1 He1].
  destruct (shr (Build_shr_record mx false false) ex
              (fexp prec emax (Zdigits2 mx + ex) - ex)) as [mrs1 e1].
  cbn [fst snd] in Hm1, He1.
  set (s1 := Z.max (fexp prec emax (Zdigits2 mx + ex) - ex) 0) in *.
  set (m1 := round_nearest_even (shr_m mrs1) (loc_of_shr_record mrs1)).
  assert (Hs1 : 0 <= s1) by (unfold s1; lia).
  assert (Hq : 0 <= mx / 2 ^ s1)
    by (apply Z.div_pos; [lia|apply Z.pow_pos_nonneg; lia]).
  pose proof (round_nearest_even_bounds (shr_m mrs1)
                (loc_of_shr_record mrs1)) as Hr.
  fold m1 in Hr. rewrite Hm1 in Hr.
  pose proof (shr_exact m1 e1 (fexp prec emax (Zdigits2 m1 + e1) - e1)
                ltac:(lia)) as [Hm2 He2].
  destruct (shr (Build_shr_record m1 false false) e1
              (fexp prec emax (Zdigits2 m1 + e1) - e1)) as [mrs2 e2].
  cbn [fst snd] in Hm2, He2.
  exists s1, (Z.max (fexp prec emax (Zdigits2 m1 + e1) - e1) 0), m1.
  subst e1. split; [reflexivity|]. split; [exact Hr|].
  split; [reflexivity|].
  rewrite Hm2, He2. rewrite Z.add_assoc. reflexivity.
Qed.

Lemma Zdigits2_le (m n : Z) : 0 <= m < 2 ^ n -> 0 <= n -> Zdigits2 m <= n.
Proof.
  intros [Hm Hlt] Hn. destruct m as [|p|p]; cbn [Zdigits2]; [lia| |lia].
  pose proof (digits2_bounds p) as [Hlo _].
  assert (H : 2 ^ (Z.pos (digits2_pos p) - 1) < 2 ^ n) by lia.
  apply Z.pow_lt_mono_r_iff in H; lia.
Qed.

(** The product of a number [m * 2^e] that is at most 1 with the literal
    100: a positive zero, or a positive number below 100.5 whose exponent
    is at most -2. *)
Lemma mul_100_below (m : positive) (e : Z) :
  Z.pos m <= 2 ^ (- e) ->
  match mul (S754_finite false m e) lit_100 with
  | S754_zero false => True
  | S754_finite false m2 e2 =>
      e2 <= -2 /\ 2 * Z.pos m2 < 201 * 2 ^ (- e2)
  | _ => False
  end.
Proof.
  intros Hle.
  assert (He : e <= 0).
  { destruct (Z.leb_spec e 0) as [H|H]; [exact H|].
    rewrite Z.pow_neg_r in Hle by lia. lia. }
  unfold mul, lit_100, SFmul. cbn [xorb].
  set (mx := Z.pos (m * 7036874417766400)).
  set (ex := e + -46).
  assert (Hmx : 0 < mx) by (unfold mx; lia).
  (* the exact product is at most 100 *)
  assert (Hval : mx <= 100 * 2 ^ (- ex)).
  { unfold mx, ex. rewrite Pos2Z.inj_mul.
    change (Z.pos 7036874417766400) with (100 * 2 ^ 46).
    replace (- (e + -46)) with (- e + 46) by lia.
    rewrite Z.pow_add_r by lia. nia. }
  (* hence it has at most [7 - ex] digits *)
  assert (Hd : 0 < Zdigits2 mx /\ Zdigits2 mx + ex <= 7 /\
               mx < 2 ^ Zdigits2 mx).
  { unfold mx at 1 2 4. cbn [Zdigits2].
    pose proof (digits2_bounds (m * 7036874417766400)) as [Hlo Hhi].
    fold mx in Hlo, Hhi. split; [lia|]. split; [|exact Hhi].
    assert (H : 2 ^ (Z.pos (digits2_pos (m * 7036874417766400)) - 1)
                < 2 ^ (7 - ex)).
    { replace (7 - ex) with (7 + - ex) by lia.
      rewrite (Z.pow_add_r 2 7) by lia. change (2 ^ 7) with 128.
      assert (0 < 2 ^ (- ex)) by (apply Z.pow_pos_nonneg; lia). lia. }
    apply Z.pow_lt_mono_r_iff in H; lia. }
  destruct Hd as (Hd0 & Hd & Hdhi).
  destruct (binary_round_aux_exact mx ex Hmx)
    as (s1 & s2 & m1 & Hs1 & Hm1 & Hs2 & ->).
  unfold fexp, emin, prec, emax in Hs1, Hs2.
  set (d := Zdigits2 mx) in *.
  set (d1 := Zdigits2 m1) in *.
  assert (Hs1n : 0 <= s1) by lia.
  assert (Hs2n : 0 <= s2) by lia.
  assert (HA : 0 < 2 ^ s1) by (apply Z.pow_pos_nonneg; lia).
  assert (HB : 0 < 2 ^ s2) by (apply Z.pow_pos_nonneg; lia).
  (* the first shift leaves at most 53 digits *)
  assert (Hq1 : 0 <= mx / 2 ^ s1 < 2 ^ 53).
  { split; [apply Z.div_pos; lia|].
    apply Z.div_lt_upper_bound; [exact HA|].
    rewrite <- Z.pow_add_r by lia.
    eapply Z.lt_le_trans; [exact Hdhi|].
    apply Z.pow_le_mono_r; lia. }
  assert (Hd1 : d1 <= 54).
  { apply Zdigits2_le; [|lia].
    change (2 ^ 54) with (2 * 2 ^ 53). lia. }
  (* the exponent of the result *)
  assert (He2 : ex + s1 + s2 <= -45) by lia.
  (* the mantissa of the result *)
  set (m2 := m1 / 2 ^ s2).
  assert (Hm2 : 0 <= m2) by (apply Z.div_pos; lia).
  assert (Hm2' : 2 ^ s2 * m2 <= m1) by (apply Z.mul_div_le; exact HB).
  assert (Hq1' : 2 ^ s1 * (mx / 2 ^ s1) <= mx)
    by (apply Z.mul_div_le; exact HA).
  set (k := - (ex + s1 + s2)).
  assert (Hk : - ex = k + s1 + s2) by (unfold k; lia).
  assert (HK : 2 ^ 45 <= 2 ^ k) by (apply Z.pow_le_mono_r; unfold k; lia).
  change (2 ^ 45) with 35184372088832 in HK.
  assert (Hbound : 2 * m2 < 201 * 2 ^ k).
  { rewrite Hk in Hval. rewrite !Z.pow_add_r in Hval by (unfold k; lia).
    set (K := 2 ^ k) in *. set (A := 2 ^ s1) in *. set (B := 2 ^ s2) in *.
    assert (H1 : m2 * (A * B) <= (100 * K + 1) * (A * B)) by nia.
    apply Z.mul_le_mono_pos_r in H1; [lia|nia]. }
  destruct m2 as [|p2|p2] eqn:E2; [exact I| |lia].
  replace (ex + s1 + s2 <=? emax - prec) with true
    by (symmetry; apply Z.leb_le; unfold emax, prec; lia).
  split; [lia|]. fold k. exact Hbound.
Qed.

End Rounding.

(** ** The displayed percentage *)

Section Percentage.

Local Open Scope Z_scope.

(** [round_half_up] is the integer nearest to the exact value of the
    number, the larger one on a tie. *)
Lemma round_half_up_nearest (m : positive) (e : Z) :
  (inject_Z (round_half_up m e) - (1 # 2)
   <= to_Q (S754_finite false m e))%Q /\
  (to_Q (S754_finite false m e)
   < inject_Z (round_half_up m e) + (1 # 2))%Q.
Proof.
  destruct e as [|p|p]; cbn [round_half_up to_Q].
  - unfold Qle, Qlt, Qminus, Qplus, Qopp, inject_Z; cbn [Qnum Qden]. lia.
  - unfold Qle, Qlt, Qminus, Qplus, Qopp, inject_Z; cbn [Qnum Qden]. lia.
  - unfold Qle, Qlt, Qminus, Qplus, Qopp, inject_Z; cbn [Qnum Qden].
    rewrite Pos2Z.inj_pow.
    assert (HP : 0 < 2 ^ Z.pos p) by (apply Z.pow_pos_nonneg; lia).
    set (P := 2 ^ Z.pos p) in *.
    pose proof (Z.mul_div_le (2 * Z.pos m + P) (2 * P) ltac:(lia)) as Hlo.
    pose proof (Z.mul_succ_div_gt (2 * Z.pos m + P) (2 * P) ltac:(lia))
      as Hhi.
    set (n := (2 * Z.pos m + P) / (2 * P)) in *.
    clearbody n P. split; lia.
Qed.

(** The exponent and the mantissa bound of [mul_100_below] give a
    percentage between 0 and 100 that is printed in plain digits. *)
Lemma toFixed0_below (Number_toString : number -> string)
      (m : positive) (e : Z) :
  e <= -2 -> 2 * Z.pos m < 201 * 2 ^ (- e) ->
  0 <= round_half_up m e <= 100 /\
  toFixed0 Number_toString (S754_finite false m e)
  = decimal (round_half_up m e).
Proof.
  intros He Hm. destruct e as [|p|p]; try lia.
  cbn [round_half_up toFixed0 truncate].
  change (- Z.neg p) with (Z.pos p) in Hm.
  assert (HP : 0 < 2 ^ Z.pos p) by (apply Z.pow_pos_nonneg; lia).
  set (P := 2 ^ Z.pos p) in *.
  assert (Hn : 0 <= (2 * Z.pos m + P) / (2 * P) <= 100).
  { split; [apply Z.div_pos; lia|].
    apply Z.lt_succ_r. apply Z.div_lt_upper_bound; lia. }
  split; [exact Hn|].
  assert (Ht : Z.pos m / P < 10 ^ 21).
  { apply Z.div_lt_upper_bound; [exact HP|].
    change (10 ^ 21) with 1000000000000000000000. lia. }
  apply Z.leb_gt in Ht. rewrite Ht. reflexivity.
Qed.

(** A binary64 number between 0 and 1 is a zero or a positive
    [m * 2^e] with [m <= 2^(-e)]. *)
Lemma unit_interval_mantissa (s : bool) (m : positive) (e : Z) :
  valid (S754_finite s m e) = true ->
  le lit_0 (S754_finite s m e) = true ->
  le (S754_finite s m e) lit_1 = true ->
  s = false /\ Z.pos m <= 2 ^ (- e).
Proof.
  intros Hv H0 H1. destruct s; [discriminate H0|]. split; [reflexivity|].
  unfold valid, valid_binary, bounded, canonical_mantissa in Hv.
  apply andb_true_iff in Hv. destruct Hv as [Hc _].
  apply Z.eqb_eq in Hc. unfold fexp, emin, prec, emax in Hc.
  pose proof (digits2_bounds m) as [_ Hhi].
  assert (Hd : Z.pos (digits2_pos m) <= 53) by lia.
  assert (Hm : Z.pos m < 2 ^ 53).
  { eapply Z.lt_le_trans; [exact Hhi|]. apply Z.pow_le_mono_r; lia. }
  unfold le, SFleb, lit_1 in H1. cbn [SFcompare] in H1.
  rewrite compare_cont_Eq in H1.
  destruct (Z.compare_spec e (-52)) as [E|E|E]; [| |discriminate H1].
  - subst e. change (2 ^ (- -52)) with 4503599627370496.
    destruct (Pos.compare_spec m 4503599627370496) as [E'|E'|E'];
      [subst m; apply Z.le_refl
      |apply Z.lt_le_incl, Pos2Z.pos_lt_pos, E'
      |discriminate H1].
  - assert (H : 2 ^ 53 <= 2 ^ (- e)) by (apply Z.pow_le_mono_r; lia).
    clear - Hm H. lia.
Qed.

End Percentage.

(** C5: for every binary64 probability between 0 and 1, the displayed
    percentage is the decimal numeral of an integer [n] between 0 and 100,
    and [n] is the integer nearest to the binary64 product
    [probability * 100], the larger one when the product lies halfway
    between two integers (no truncation). *)
Theorem percentage_round_half_up
        (Number_toString : number -> string) (prediction : Prediction) :
  valid (probability prediction) = true ->
  le lit_0 (probability prediction) = true ->
  le (probability prediction) lit_1 = true ->
  exists n : Z,
    (0 <= n <= 100)%Z /\
    percentage Number_toString prediction = decimal n /\
    (inject_Z n - (1 # 2)
     <= to_Q (mul (probability prediction) lit_100))%Q /\
    (to_Q (mul (probability prediction) lit_100)
     < inject_Z n + (1 # 2))%Q.
Proof.
  destruct prediction as [name p]. cbn [probability].
  unfold percentage. cbn [probability].
  intros Hv H0 H1.
  destruct p as [s|s| |s m e].
  - (* a zero *)
    exists 0%Z. destruct s; cbn; repeat split; try lia; discriminate.
  - destruct s; discriminate.
  - discriminate.
  - destruct (unit_interval_mantissa s m e Hv H0 H1) as [-> Hm].
    pose proof (mul_100_below m e Hm) as Hmul.
    destruct (mul (S754_finite false m e) lit_100)
      as [[|]|[|]| |[|] m2 e2]; try contradiction.
    + exists 0%Z. cbn. repeat split; try lia; discriminate.
    + destruct Hmul as [He2 Hm2].
      destruct (toFixed0_below Number_toString m2 e2 He2 Hm2) as [Hn Hs].
      exists (round_half_up m2 e2).
      split; [exact Hn|]. split; [exact Hs|].
      apply round_half_up_nearest.
Qed.

Lemma percentage_round_half_up_witness :
  exists n : Z,
    (0 <= n <= 100)%Z /\
    percentage (fun _ => EmptyString) (mkPrediction "B" lit_0_015)
    = decimal n /\
    (inject_Z n - (1 # 2) <= to_Q (mul lit_0_015 lit_100))%Q /\
    (to_Q (mul lit_0_015 lit_100) < inject_Z n + (1 # 2))%Q.
Proof.
  apply (percentage_round_half_up (fun _ => EmptyString)
           (mkPrediction "B" lit_0_015)); reflexivity.
Defined.

(** The product that is rounded is the binary64 one: 0.015 is a binary64
    number just below 15/1000 whose product with 100 is exactly 1.5, and
    it is displayed as 2. *)
Lemma percentage_of_0_015 (Number_toString : number -> string) :
  (to_Q lit_0_015 < 15 # 1000)%Q /\
  (to_Q (mul lit_0_015 lit_100) == 3 # 2)%Q /\
  percentage Number_toString (mkPrediction "B" lit_0_015) = "2"%string.
Proof. repeat split. Qed.
